(** * Fronius Modbus config flow: the connection validator

    A shallow embedding of [custom_components/fronius_modbus/config_flow.py]:
    [validate_input] and [ConfigFlow.async_step_user].

    Python integers are unbounded and are modelled by [Z]; [str] values by
    [string], one character per element; the dict [hub.data] by a
    [gmap string string]; the set built by the uniqueness check by a
    [gset Z].  Exceptions and logging are threaded through a small monad
    that records every observable effect (log records and calls into the
    external hub) in order. *)

From Stdlib Require Import ZArith String List Lia.
From stdpp Require Import base decidable option list gmap sets strings.

Open Scope string_scope.
Open Scope list_scope.
Open Scope Z_scope.

(** ** Data model *)

(** The submitted form, after the platform applied [DATA_SCHEMA]: every key
    is present with a value of the schema's type. *)
Record ConnectionConfig := {
  CONF_NAME : string;
  CONF_HOST : string;
  CONF_PORT : Z;
  CONF_INVERTER_UNIT_ID : Z;
  CONF_METER_UNIT_ID : Z;
  CONF_SCAN_INTERVAL : Z;
}.

(** The exception classes of the module, and [OtherException] for every
    other subclass of [Exception] (named by its class). *)
Inductive exn :=
  | CannotConnect
  | InvalidHost
  | InvalidPort
  | UnsupportedHardware
  | AddressesNotUnique
  | ScanIntervalTooShort
  | OtherException (cls : string).

#[global] Instance exn_eq_dec : EqDecision exn.
Proof. solve_decision. Defined.

(** The dict returned by [validate_input]: [{"title": ...}]. *)
Record ValidationResult := { title : string }.

(** Arguments of the [Hub] constructor, in the order of the call
    (the [hass] handle is the ambient [HubInterface]). *)
Record HubArgs := {
  hub_name : string;
  hub_host : string;
  hub_port : Z;
  hub_inverter_unit_id : Z;
  hub_meter_addresses : list Z;
  hub_scan_interval : Z;
}.

(** The external hub: its constructor and its [init_data] coroutine may
    raise; [init_data] fills the [data] mapping of the hub object, from
    field names such as [i_manufacturer] and [i_model] to the strings the
    hub decoded.  A field the hub did not fill is absent from the mapping. *)
Class HubInterface := {
  hub_obj : Type;
  Hub : HubArgs → exn + hub_obj;
  init_data : hub_obj → exn + hub_obj;
  hub_data : hub_obj → gmap string string;
}.

(** Python's [a > b] on lengths. *)
#[global] Instance nat_gt_dec (x y : nat) : Decision (x > y)%nat := decide (y < x)%nat.

(** ** Effects *)

Inductive log_level := ERROR | WARNING | EXCEPTION.

(** The log messages of the module, with the values they interpolate. *)
Inductive log_msg :=
  | MsgAddressesNotUnique (all_addresses : list Z)
  | MsgCannotStartHub (e : exn)
  | MsgNoManufacturer
  | MsgUnsupportedManufacturer (manufacturer : string)
  | MsgNoModel
  | MsgUntestedModel (model : string)
  | MsgUnexpectedException.

Inductive event :=
  | EvLog (lvl : log_level) (msg : log_msg)
  | EvHub (args : HubArgs)
  | EvInitData.

(** A computation yields the events it performed and either the raised
    exception or its value. *)
Definition M (A : Type) : Type := list event * (exn + A).

Definition trace {A} (m : M A) : list event := fst m.
Definition outcome {A} (m : M A) : exn + A := snd m.

#[global] Instance M_ret : MRet M := λ A a, ([], inr a).

#[global] Instance M_bind : MBind M := λ A B f m,
  match m with
  | (t, inl e) => (t, inl e)
  | (t, inr a) => let '(t', r) := f a in (t ++ t', r)
  end.

Definition raise {A} (e : exn) : M A := ([], inl e).

Definition emit (ev : event) : M unit := ([ev], inr tt).

Definition log (lvl : log_level) (msg : log_msg) : M unit := emit (EvLog lvl msg).

(** [try: m except Exception as e: h e] *)
Definition try_except {A} (m : M A) (h : exn → M A) : M A :=
  match m with
  | (t, inl e) => let '(t', r) := h e in (t ++ t', r)
  | (t, inr a) => (t, inr a)
  end.

(** [if c: raise e] *)
Definition raise_if (c : bool) (e : exn) : M unit :=
  if c then raise e else mret tt.

Definition call_Hub `{HubInterface} (args : HubArgs) : M hub_obj :=
  ([EvHub args], Hub args).

Definition call_init_data `{HubInterface} (h : hub_obj) : M hub_obj :=
  ([EvInitData], init_data h).

(** ** validate_input *)

Section Validator.

(** The tables of [const.py]. *)
Variable SUPPORTED_MANUFACTURERS : list string.
Variable SUPPORTED_MODELS : list string.

Context `{hub_impl : HubInterface}.

Definition meter_addresses (data : ConnectionConfig) : list Z :=
  if bool_decide (CONF_METER_UNIT_ID data > 0) then [CONF_METER_UNIT_ID data] else [].

Definition all_addresses (data : ConnectionConfig) : list Z :=
  meter_addresses data ++ [CONF_INVERTER_UNIT_ID data].

Definition hub_args (data : ConnectionConfig) : HubArgs :=
  {| hub_name := CONF_NAME data;
     hub_host := CONF_HOST data;
     hub_port := CONF_PORT data;
     hub_inverter_unit_id := CONF_INVERTER_UNIT_ID data;
     hub_meter_addresses := meter_addresses data;
     hub_scan_interval := CONF_SCAN_INTERVAL data |}.

(** The loop over [SUPPORTED_MODELS]: the flag is set at every entry the
    model starts with and never cleared. *)
Definition model_supported (model : string) : bool :=
  foldl (λ supported supported_model,
           if String.prefix supported_model model then true else supported)
        false SUPPORTED_MODELS.

Definition validate_input (data : ConnectionConfig) : M ValidationResult :=
  raise_if (bool_decide (String.length (CONF_HOST data) < 3)%nat) InvalidHost ;;
  raise_if (bool_decide (CONF_PORT data > 65535)) InvalidPort ;;
  raise_if (bool_decide (CONF_SCAN_INTERVAL data < 5)) ScanIntervalTooShort ;;
  (if bool_decide (length (all_addresses data)
                   > size (list_to_set (all_addresses data) : gset Z))%nat
   then log ERROR (MsgAddressesNotUnique (all_addresses data)) ;;
        raise AddressesNotUnique
   else mret tt) ;;
  hub ← try_except
          (hub ← call_Hub (hub_args data) ; call_init_data hub)
          (λ e, log ERROR (MsgCannotStartHub e) ;; raise CannotConnect) ;
  manufacturer ←
    match hub_data hub !! "i_manufacturer" with
    | None => log ERROR MsgNoManufacturer ;; raise UnsupportedHardware
    | Some manufacturer => mret manufacturer
    end ;
  (if bool_decide (manufacturer ∉ SUPPORTED_MANUFACTURERS)
   then log ERROR (MsgUnsupportedManufacturer manufacturer) ;;
        raise UnsupportedHardware
   else mret tt) ;;
  model ←
    match hub_data hub !! "i_model" with
    | None => log ERROR MsgNoModel ;; raise UnsupportedHardware
    | Some model => mret model
    end ;
  (if negb (model_supported model)
   then log WARNING (MsgUntestedModel model)
   else mret tt) ;;
  mret {| title := CONF_NAME data |}.

End Validator.

(** ** ConfigFlow.async_step_user *)

(** What the step hands back to the platform: [async_create_entry] or
    [async_show_form] (whose schema is always [DATA_SCHEMA]). *)
Inductive FlowResult :=
  | CreateEntry (entry_title : string) (entry_data : ConnectionConfig)
  | ShowForm (step_id : string) (errors : gmap string string).

Section Flow.

Variable SUPPORTED_MANUFACTURERS : list string.
Variable SUPPORTED_MODELS : list string.

Context `{hub_impl : HubInterface}.

(** The [except] clauses, in their order; the module's classes are
    siblings, so at most one of the typed clauses applies. *)
Definition on_exception (errors : gmap string string) (e : exn)
  : M (FlowResult + gmap string string) :=
  match e with
  | CannotConnect => mret (inr (<["base" := "cannot_connect"]> errors))
  | InvalidPort => mret (inr (<["base" := "invalid_port"]> errors))
  | InvalidHost => mret (inr (<["host" := "invalid_host"]> errors))
  | ScanIntervalTooShort => mret (inr (<["base" := "scan_interval_too_short"]> errors))
  | UnsupportedHardware => mret (inr (<["base" := "unsupported_hardware"]> errors))
  | AddressesNotUnique => mret (inr (<["base" := "modbus_address_conflict"]> errors))
  | OtherException _ =>
      log EXCEPTION MsgUnexpectedException ;;
      mret (inr (<["base" := "unknown"]> errors))
  end.

(** The body returns from inside the [try] on success ([inl]), and falls
    through to the form with the collected [errors] otherwise ([inr]). *)
Definition async_step_user (user_input : option ConnectionConfig) : M FlowResult :=
  let errors : gmap string string := ∅ in
  r ← match user_input with
      | Some user_input =>
          try_except
            (info ← validate_input SUPPORTED_MANUFACTURERS SUPPORTED_MODELS user_input ;
             mret (inl (CreateEntry (title info) user_input)))
            (on_exception errors)
      | None => mret (inr errors)
      end ;
  match r with
  | inl result => mret result
  | inr errors => mret (ShowForm "user" errors)
  end.

End Flow.

(** ** Vocabulary of the checks *)

Section Checks.

Variable SUPPORTED_MANUFACTURERS : list string.
Variable SUPPORTED_MODELS : list string.

Context `{hub_impl : HubInterface}.

Implicit Types data : ConnectionConfig.

Definition host_ok (data : ConnectionConfig) : Prop :=
  (3 ≤ String.length (CONF_HOST data))%nat.

Definition port_ok (data : ConnectionConfig) : Prop := CONF_PORT data ≤ 65535.

Definition scan_interval_ok (data : ConnectionConfig) : Prop :=
  5 ≤ CONF_SCAN_INTERVAL data.

Definition addresses_unique (data : ConnectionConfig) : Prop :=
  NoDup (all_addresses data).

(** The synchronous field checks, the ones made before the hub is built. *)
Definition field_checks_pass (data : ConnectionConfig) : Prop :=
  host_ok data ∧ port_ok data ∧ scan_interval_ok data ∧ addresses_unique data.

(** Building the hub and awaiting [init_data], as one outcome. *)
Definition probe (data : ConnectionConfig) : exn + hub_obj :=
  match Hub (hub_args data) with
  | inl e => inl e
  | inr hub => init_data hub
  end.

Definition probe_ok (data : ConnectionConfig) : Prop :=
  match probe data with inl _ => False | inr _ => True end.

#[global] Instance host_ok_dec data : Decision (host_ok data) := _.
#[global] Instance port_ok_dec data : Decision (port_ok data) := _.
#[global] Instance scan_interval_ok_dec data : Decision (scan_interval_ok data) := _.
#[global] Instance addresses_unique_dec data : Decision (addresses_unique data) := _.
#[global] Instance field_checks_pass_dec data : Decision (field_checks_pass data) := _.
#[global] Instance probe_ok_dec data : Decision (probe_ok data).
Proof. unfold probe_ok. destruct (probe data); apply _. Defined.

(** The checks in the order the specification lists them, each with the
    failure it reports. *)
Definition ordered_checks (data : ConnectionConfig) : list (bool * exn) :=
  [ (bool_decide (host_ok data), InvalidHost);
    (bool_decide (port_ok data), InvalidPort);
    (bool_decide (scan_interval_ok data), ScanIntervalTooShort);
    (bool_decide (addresses_unique data), AddressesNotUnique);
    (bool_decide (probe_ok data), CannotConnect) ].

(** The failure of the first check of the list that does not hold. *)
Definition earliest_violation (data : ConnectionConfig) : option exn :=
  snd <$> find (λ check, negb (fst check)) (ordered_checks data).

(** The events of a probe that was started: the constructor call, then
    [init_data] if the constructor returned. *)
Definition probe_events (data : ConnectionConfig) : list event :=
  match Hub (hub_args data) with
  | inl _ => [EvHub (hub_args data)]
  | inr _ => [EvHub (hub_args data); EvInitData]
  end.

(** The events and outcome of lines 87-117 in closed form, for a hub whose
    probe returned; [run_probe_returns] relates it to [validate_input]. *)
Definition inspect_hub data (hub : hub_obj) : M ValidationResult :=
  match hub_data hub !! "i_manufacturer" with
  | None => ([EvLog ERROR MsgNoManufacturer], inl UnsupportedHardware)
  | Some manufacturer =>
      if bool_decide (manufacturer ∈ SUPPORTED_MANUFACTURERS) then
        match hub_data hub !! "i_model" with
        | None => ([EvLog ERROR MsgNoModel], inl UnsupportedHardware)
        | Some model =>
            (if model_supported SUPPORTED_MODELS model then []
             else [EvLog WARNING (MsgUntestedModel model)],
             inr {| title := CONF_NAME data |})
        end
      else ([EvLog ERROR (MsgUnsupportedManufacturer manufacturer)],
            inl UnsupportedHardware)
  end.

End Checks.

(** ** Reading a trace *)

Definition is_hub_call (ev : event) : bool :=
  match ev with
  | EvLog _ _ => false
  | EvHub _ | EvInitData => true
  end.

(** The calls into the hub among the events of a run, in their order. *)
Definition hub_calls (t : list event) : list event := List.filter is_hub_call t.

(** ** The six ways a run of [validate_input] can go *)

Section Runs.

Variable SUPPORTED_MANUFACTURERS : list string.
Variable SUPPORTED_MODELS : list string.

Context `{hub_impl : HubInterface}.

Implicit Types data : ConnectionConfig.

Inductive run_of data : M ValidationResult → Prop :=
  | RunInvalidHost :
      ¬ host_ok data → run_of data ([], inl InvalidHost)
  | RunInvalidPort :
      host_ok data → ¬ port_ok data → run_of data ([], inl InvalidPort)
  | RunScanIntervalTooShort :
      host_ok data → port_ok data → ¬ scan_interval_ok data →
      run_of data ([], inl ScanIntervalTooShort)
  | RunAddressesNotUnique :
      host_ok data → port_ok data → scan_interval_ok data → ¬ addresses_unique data →
      run_of data ([EvLog ERROR (MsgAddressesNotUnique (all_addresses data))],
                   inl AddressesNotUnique)
  | RunProbeRaises e :
      field_checks_pass data → probe data = inl e →
      run_of data (probe_events data ++ [EvLog ERROR (MsgCannotStartHub e)],
                   inl CannotConnect)
  | RunProbeReturns hub :
      field_checks_pass data → probe data = inr hub →
      run_of data (probe_events data ++ trace (inspect_hub SUPPORTED_MANUFACTURERS SUPPORTED_MODELS data hub),
                   outcome (inspect_hub SUPPORTED_MANUFACTURERS SUPPORTED_MODELS data hub)).

End Runs.

(** ** Concrete environments used by the examples *)

Module Examples.

Definition supported_manufacturers : list string := ["Fronius"].
Definition supported_models : list string := ["Primo GEN24"; "Symo GEN24"].

Definition good_data : gmap string string :=
  {[ "i_manufacturer" := "Fronius"; "i_model" := "Primo GEN24 10.0" ]}.

(** A hub whose [init_data] stores the given mapping. *)
Definition answering_hub (d : gmap string string) : HubInterface :=
  {| hub_obj := gmap string string;
     Hub := λ _, inr ∅;
     init_data := λ _, inr d;
     hub_data := λ h, h |}.

(** A hub whose constructor raises. *)
Definition unbuildable_hub (e : exn) : HubInterface :=
  {| hub_obj := unit;
     Hub := λ _, inl e;
     init_data := λ h, inr h;
     hub_data := λ _, ∅ |}.

(** A hub whose [init_data] raises. *)
Definition unreachable_hub (e : exn) : HubInterface :=
  {| hub_obj := unit;
     Hub := λ _, inr tt;
     init_data := λ _, inl e;
     hub_data := λ _, ∅ |}.

Definition timeout : exn := OtherException "TimeoutError".

Definition untested_data : gmap string string :=
  {[ "i_manufacturer" := "Fronius"; "i_model" := "Tauro 50-3-D" ]}.

Definition foreign_data : gmap string string :=
  {[ "i_manufacturer" := "SolarEdge"; "i_model" := "SE5000" ]}.

Definition cfg (host : string) (port inverter meter scan : Z) : ConnectionConfig :=
  {| CONF_NAME := "Fronius";
     CONF_HOST := host;
     CONF_PORT := port;
     CONF_INVERTER_UNIT_ID := inverter;
     CONF_METER_UNIT_ID := meter;
     CONF_SCAN_INTERVAL := scan |}.

Definition validate (H : HubInterface) := @validate_input supported_manufacturers supported_models H.
Definition step (H : HubInterface) := @async_step_user supported_manufacturers supported_models H.

End Examples.

(** * Properties *)

(** ** The duplicate test [len(l) > len(set(l))] *)

Section Duplicates.

Implicit Types l : list Z.

Lemma size_list_to_set_le l : (size (list_to_set l : gset Z) ≤ length l)%nat.
Proof.
  induction l as [|x l IH]; simpl.
  - done.
  - rewrite size_union_alt, size_singleton.
    assert (size (list_to_set l ∖ {[x]} : gset Z) ≤ size (list_to_set l : gset Z))%nat
      by (apply subseteq_size; set_solver).
    lia.
Qed.

Lemma size_list_to_set_NoDup l :
  size (list_to_set l : gset Z) = length l → NoDup l.
Proof.
  induction l as [|x l IH]; simpl; intros Hsz.
  - constructor.
  - pose proof (size_list_to_set_le l) as Hle.
    destruct (decide (x ∈ l)) as [Hin|Hnin].
    + assert ({[x]} ∪ list_to_set l = (list_to_set l : gset Z)) as Heq by set_solver.
      rewrite Heq in Hsz. lia.
    + rewrite size_union, size_singleton in Hsz by set_solver.
      constructor; [done | apply IH; lia].
Qed.

(** The test of the source is true exactly on lists with a repeated element. *)
Lemma duplicate_test l :
  (length l > size (list_to_set l : gset Z))%nat ↔ ¬ NoDup l.
Proof.
  split.
  - intros Hgt Hnd. apply (size_list_to_set (C := gset Z)) in Hnd. lia.
  - intros Hdup. pose proof (size_list_to_set_le l) as Hle.
    destruct (decide (size (list_to_set l : gset Z) = length l)) as [Heq|Hne]; [| lia].
    destruct Hdup. by apply size_list_to_set_NoDup.
Qed.

End Duplicates.

(** ** The run of [validate_input], stage by stage *)

Section Run.

Variable SUPPORTED_MANUFACTURERS : list string.
Variable SUPPORTED_MODELS : list string.

Context `{hub_impl : HubInterface}.

Abbreviation validate_input := (validate_input SUPPORTED_MANUFACTURERS SUPPORTED_MODELS).
Abbreviation inspect := (inspect_hub SUPPORTED_MANUFACTURERS SUPPORTED_MODELS).

Implicit Types data : ConnectionConfig.

(** The loop leaves the flag clear exactly when no entry is a prefix. *)
Lemma model_supported_false model :
  model_supported SUPPORTED_MODELS model = false ↔
  ∀ supported_model, supported_model ∈ SUPPORTED_MODELS →
                     String.prefix supported_model model = false.
Proof.
  unfold model_supported.
  assert (∀ l acc,
    foldl (λ supported supported_model,
             if String.prefix supported_model model then true else supported) acc l = false ↔
    acc = false ∧ ∀ sm, sm ∈ l → String.prefix sm model = false) as Hloop.
  { induction l as [|sm l IH]; intros acc; simpl.
    - split; [intros ->; split; [done | by intros ? ?%elem_of_nil] | by intros []].
    - rewrite IH. split.
      + intros [Hacc Hl]. destruct (String.prefix sm model) eqn:Hsm; [done|].
        split; [done|]. intros sm' [->|Hin]%elem_of_cons; auto.
      + intros [-> Hl]. rewrite (Hl sm) by apply list_elem_of_here.
        split; [done|]. intros sm' Hin. apply Hl. by apply list_elem_of_further. }
  rewrite Hloop. naive_solver.
Qed.

Ltac decide_check :=
  match goal with
  | |- context [bool_decide ?P] =>
      first [ rewrite (bool_decide_eq_true_2 P) by (first [done | lia])
            | rewrite (bool_decide_eq_false_2 P) by (first [done | lia]) ]
  end.

Lemma run_invalid_host data :
  ¬ host_ok data → validate_input data = ([], inl InvalidHost).
Proof.
  unfold host_ok. intros Hhost. unfold validate_input, raise_if.
  by decide_check.
Qed.

Lemma run_invalid_port data :
  host_ok data → ¬ port_ok data → validate_input data = ([], inl InvalidPort).
Proof.
  unfold host_ok, port_ok. intros Hhost Hport. unfold validate_input, raise_if.
  by do 2 decide_check.
Qed.

Lemma run_scan_interval_too_short data :
  host_ok data → port_ok data → ¬ scan_interval_ok data →
  validate_input data = ([], inl ScanIntervalTooShort).
Proof.
  unfold host_ok, port_ok, scan_interval_ok. intros Hhost Hport Hscan.
  unfold validate_input, raise_if.
  by do 3 decide_check.
Qed.

Lemma run_addresses_not_unique data :
  host_ok data → port_ok data → scan_interval_ok data → ¬ addresses_unique data →
  validate_input data =
    ([EvLog ERROR (MsgAddressesNotUnique (all_addresses data))], inl AddressesNotUnique).
Proof.
  unfold host_ok, port_ok, scan_interval_ok, addresses_unique.
  intros Hhost Hport Hscan Hdup. apply duplicate_test in Hdup.
  unfold validate_input, raise_if.
  by do 4 decide_check.
Qed.

Lemma run_probe_raises data e :
  field_checks_pass data → probe data = inl e →
  validate_input data =
    (probe_events data ++ [EvLog ERROR (MsgCannotStartHub e)], inl CannotConnect).
Proof.
  unfold field_checks_pass, host_ok, port_ok, scan_interval_ok, addresses_unique.
  intros (Hhost & Hport & Hscan & Huniq) Hprobe.
  assert (¬ (length (all_addresses data)
             > size (list_to_set (all_addresses data) : gset Z))%nat) as Hnodup
    by (by rewrite duplicate_test; intros []).
  unfold validate_input, raise_if. do 4 decide_check.
  unfold probe in Hprobe. unfold probe_events, call_Hub, call_init_data.
  destruct (Hub (hub_args data)) as [e'|hub]; simpl.
  - by injection Hprobe as ->.
  - by rewrite Hprobe.
Qed.

Lemma run_probe_returns data hub :
  field_checks_pass data → probe data = inr hub →
  validate_input data =
    (probe_events data ++ trace (inspect data hub), outcome (inspect data hub)).
Proof.
  unfold field_checks_pass, host_ok, port_ok, scan_interval_ok, addresses_unique.
  intros (Hhost & Hport & Hscan & Huniq) Hprobe.
  assert (¬ (length (all_addresses data)
             > size (list_to_set (all_addresses data) : gset Z))%nat) as Hnodup
    by (by rewrite duplicate_test; intros []).
  unfold validate_input, raise_if. do 4 decide_check.
  unfold probe in Hprobe. unfold probe_events, call_Hub, call_init_data, inspect_hub.
  destruct (Hub (hub_args data)) as [e'|hub0]; [done|]. simpl. rewrite Hprobe. simpl.
  destruct (hub_data hub !! "i_manufacturer") as [manufacturer|]; [|done]. simpl.
  destruct (decide (manufacturer ∈ SUPPORTED_MANUFACTURERS)) as [Hin|Hnin].
  - rewrite (bool_decide_eq_false_2 (manufacturer ∉ _)) by (by intros []).
    rewrite bool_decide_eq_true_2 by done. simpl.
    destruct (hub_data hub !! "i_model") as [model|]; [|done]. simpl.
    by destruct (model_supported SUPPORTED_MODELS model).
  - rewrite (bool_decide_eq_true_2 (manufacturer ∉ _)) by done.
    by rewrite bool_decide_eq_false_2 by done.
Qed.

(** [AddressesNotUnique] has one source, the uniqueness check. *)
Lemma addresses_not_unique_inv data :
  outcome (validate_input data) = inl AddressesNotUnique → ¬ addresses_unique data.
Proof.
  intros Hfail Huniq.
  destruct (decide (host_ok data)) as [Hhost|Hhost];
    [| by rewrite run_invalid_host in Hfail].
  destruct (decide (port_ok data)) as [Hport|Hport];
    [| by rewrite run_invalid_port in Hfail].
  destruct (decide (scan_interval_ok data)) as [Hscan|Hscan];
    [| by rewrite run_scan_interval_too_short in Hfail].
  destruct (probe data) as [e|hub] eqn:Hprobe.
  - by rewrite (run_probe_raises _ e) in Hfail.
  - rewrite (run_probe_returns _ hub) in Hfail by done.
    revert Hfail. unfold inspect_hub, outcome. simpl.
    by repeat case_match.
Qed.

(** The direction of [String.prefix]: the entry is the prefix, as in
    [model.startswith(supported_model)]. *)
Example model_supported_direction :
  model_supported ["Primo GEN24"; "Symo GEN24"] "Symo GEN24 10.0" = true ∧
  model_supported ["Primo GEN24 10.0"] "Primo GEN24" = false.
Proof. split; reflexivity. Qed.

(** ** Where the hub is built *)

Lemma inspect_hub_only_logs data hub args : EvHub args ∉ trace (inspect data hub).
Proof.
  unfold inspect_hub, trace.
  repeat case_match; simpl; set_solver.
Qed.

Lemma probe_events_hub data args :
  EvHub args ∈ probe_events data → args = hub_args data.
Proof.
  unfold probe_events. case_match; set_solver.
Qed.

Lemma probe_events_start data : EvHub (hub_args data) ∈ probe_events data.
Proof.
  unfold probe_events. case_match; set_solver.
Qed.

(** The constructor is called only after the four field checks, and only
    with the arguments [hub_args] takes from the form. *)
Lemma hub_built_inv data args :
  EvHub args ∈ trace (validate_input data) →
  field_checks_pass data ∧ args = hub_args data.
Proof.
  destruct (decide (host_ok data)) as [Hhost|Hhost];
    [| rewrite run_invalid_host by done; simpl; set_solver].
  destruct (decide (port_ok data)) as [Hport|Hport];
    [| rewrite run_invalid_port by done; simpl; set_solver].
  destruct (decide (scan_interval_ok data)) as [Hscan|Hscan];
    [| rewrite run_scan_interval_too_short by done; simpl; set_solver].
  destruct (decide (addresses_unique data)) as [Huniq|Huniq];
    [| rewrite run_addresses_not_unique by done; simpl; set_solver].
  assert (field_checks_pass data) as Hpass by done.
  destruct (probe data) as [e|hub] eqn:Hprobe.
  - rewrite (run_probe_raises _ e) by done. simpl.
    rewrite elem_of_app. intros [Hin|Hin]; [| set_solver].
    eauto using probe_events_hub.
  - rewrite (run_probe_returns _ hub) by done. simpl.
    rewrite elem_of_app. intros [Hin|Hin]; [eauto using probe_events_hub |].
    by apply inspect_hub_only_logs in Hin.
Qed.

Lemma hub_built data :
  field_checks_pass data → EvHub (hub_args data) ∈ trace (validate_input data).
Proof.
  intros Hpass. destruct (probe data) as [e|hub] eqn:Hprobe.
  - rewrite (run_probe_raises _ e) by done. simpl.
    apply elem_of_app. left. apply probe_events_start.
  - rewrite (run_probe_returns _ hub) by done. simpl.
    apply elem_of_app. left. apply probe_events_start.
Qed.

End Run.

(** ** The documented behaviour of the validator *)

Section Claims.

Variable SUPPORTED_MANUFACTURERS : list string.
Variable SUPPORTED_MODELS : list string.

Context `{hub_impl : HubInterface}.

Abbreviation validate_input := (validate_input SUPPORTED_MANUFACTURERS SUPPORTED_MODELS).
Abbreviation async_step_user := (async_step_user SUPPORTED_MANUFACTURERS SUPPORTED_MODELS).
Abbreviation inspect := (inspect_hub SUPPORTED_MANUFACTURERS SUPPORTED_MODELS).

Implicit Types data : ConnectionConfig.

(** The outcome of the step is decided by that of [validate_input]. *)
Lemma step_outcome_ok data info :
  outcome (validate_input data) = inr info →
  outcome (async_step_user (Some data)) = inr (CreateEntry (title info) data).
Proof.
  unfold async_step_user, outcome. simpl.
  destruct (validate_input data) as [t [e|info']]; simpl; [done|].
  by intros [= ->].
Qed.

Lemma step_cannot_connect data t :
  validate_input data = (t, inl CannotConnect) →
  async_step_user (Some data) = (t, inr (ShowForm "user" {[ "base" := "cannot_connect" ]})).
Proof.
  unfold async_step_user. simpl. intros ->. simpl.
  by rewrite !app_nil_r, insert_empty.
Qed.

Lemma cannot_connect_not_unknown :
  ({[ "base" := "cannot_connect" ]} : gmap string string) ≠ {[ "base" := "unknown" ]}.
Proof.
  intros Heq. apply (f_equal (.!! "base")) in Heq.
  by rewrite !lookup_singleton_eq in Heq.
Qed.

(** C1. A config that passes every check (host of at least 3 characters,
    port at most 65535, scan interval at least 5, unique addresses, a probe
    that returns, a supported manufacturer, a model) is accepted:
    [validate_input] returns the title equal to the config's name, and the
    step creates an entry with that title and the whole submitted config
    as data. *)
Theorem valid_config_creates_entry data hub manufacturer model :
  host_ok data → port_ok data → scan_interval_ok data → addresses_unique data →
  probe data = inr hub →
  hub_data hub !! "i_manufacturer" = Some manufacturer →
  manufacturer ∈ SUPPORTED_MANUFACTURERS →
  hub_data hub !! "i_model" = Some model →
  outcome (validate_input data) = inr {| title := CONF_NAME data |} ∧
  outcome (async_step_user (Some data)) = inr (CreateEntry (CONF_NAME data) data).
Proof.
  intros Hhost Hport Hscan Huniq Hprobe Hman Hsup Hmodel.
  assert (outcome (validate_input data) = inr {| title := CONF_NAME data |}) as Hok.
  { rewrite (run_probe_returns _ _ data hub) by done.
    unfold inspect_hub, outcome. simpl.
    by rewrite Hman, bool_decide_eq_true_2, Hmodel by done. }
  split; [done|]. by apply step_outcome_ok in Hok.
Qed.

(** C2. When the field checks pass and either the hub constructor or the
    awaited [init_data] raises an exception [e], [validate_input] fails with
    [CannotConnect], after logging [e] at error level. *)
Theorem probe_exception_is_cannot_connect data e :
  field_checks_pass data →
  (Hub (hub_args data) = inl e ∨
   ∃ hub, Hub (hub_args data) = inr hub ∧ init_data hub = inl e) →
  outcome (validate_input data) = inl CannotConnect ∧
  last (trace (validate_input data)) = Some (EvLog ERROR (MsgCannotStartHub e)).
Proof.
  intros Hpass Hraise.
  assert (probe data = inl e) as Hprobe.
  { unfold probe. destruct Hraise as [-> | (hub & -> & ->)]; done. }
  rewrite (run_probe_raises _ _ data e) by done. simpl.
  split; [done|]. by rewrite last_snoc.
Qed.

(** C3 (as the code has it). An exception [e] raised during the hub probe is
    caught inside [validate_input] and logged at error level, and the step
    shows the form again with the error code [cannot_connect] under [base]:
    not with [unknown], and without the "Unexpected exception" record. *)
Theorem probe_exception_reported_as_cannot_connect data e :
  field_checks_pass data → probe data = inl e →
  outcome (async_step_user (Some data))
    = inr (ShowForm "user" {[ "base" := "cannot_connect" ]}) ∧
  outcome (async_step_user (Some data)) ≠ inr (ShowForm "user" {[ "base" := "unknown" ]}) ∧
  EvLog ERROR (MsgCannotStartHub e) ∈ trace (async_step_user (Some data)) ∧
  EvLog EXCEPTION MsgUnexpectedException ∉ trace (async_step_user (Some data)).
Proof.
  intros Hpass Hprobe.
  rewrite (step_cannot_connect data _ (run_probe_raises _ _ data e Hpass Hprobe)).
  simpl. split_and!.
  - done.
  - intros Heq. apply cannot_connect_not_unknown. congruence.
  - set_solver.
  - rewrite elem_of_app. intros [Hin|Hin]; [| set_solver].
    unfold probe_events in Hin. case_match; set_solver.
Qed.

(** C4. The uniqueness check works on the inverter address together with
    the meter address when that one is positive, and fails with
    [AddressesNotUnique] exactly when this list has a repeated element, that
    is when the meter address is positive and equal to the inverter address.
    With meter 0 and inverter 5 the check passes; with meter 5 and inverter
    5 the outcome is [AddressesNotUnique] (the check being reached once the
    host, port and scan-interval checks have passed). *)
Theorem address_uniqueness_check data :
  (∀ a, a ∈ all_addresses data ↔
        a = CONF_INVERTER_UNIT_ID data ∨
        (0 < CONF_METER_UNIT_ID data ∧ a = CONF_METER_UNIT_ID data)) ∧
  (¬ NoDup (all_addresses data) ↔
     0 < CONF_METER_UNIT_ID data ∧ CONF_METER_UNIT_ID data = CONF_INVERTER_UNIT_ID data) ∧
  (outcome (validate_input data) = inl AddressesNotUnique → ¬ NoDup (all_addresses data)) ∧
  (host_ok data → port_ok data → scan_interval_ok data →
     ¬ NoDup (all_addresses data) →
     outcome (validate_input data) = inl AddressesNotUnique) ∧
  (CONF_METER_UNIT_ID data = 0 → CONF_INVERTER_UNIT_ID data = 5 →
     outcome (validate_input data) ≠ inl AddressesNotUnique) ∧
  (host_ok data → port_ok data → scan_interval_ok data →
     CONF_METER_UNIT_ID data = 5 → CONF_INVERTER_UNIT_ID data = 5 →
     outcome (validate_input data) = inl AddressesNotUnique).
Proof.
  assert (¬ NoDup (all_addresses data) ↔
     0 < CONF_METER_UNIT_ID data ∧ CONF_METER_UNIT_ID data = CONF_INVERTER_UNIT_ID data)
    as Hdup.
  { unfold all_addresses, meter_addresses. case_bool_decide; simpl.
    - rewrite NoDup_cons, list_elem_of_singleton.
      split.
      + intros Hnd. split; [lia|].
        destruct (decide (CONF_METER_UNIT_ID data = CONF_INVERTER_UNIT_ID data)); [done|].
        destruct Hnd. split; [done | apply NoDup_singleton].
      + intros [_ Heq] [Hne _]. done.
    - split; [intros Hnd; destruct Hnd; apply NoDup_singleton | lia]. }
  pose proof (addresses_not_unique_inv SUPPORTED_MANUFACTURERS SUPPORTED_MODELS data) as Hinv.
  split_and!.
  - intros a. unfold all_addresses, meter_addresses.
    case_bool_decide; [set_solver by lia | set_solver by lia].
  - done.
  - intros Hfail. by apply Hinv.
  - intros Hhost Hport Hscan Hnd. by rewrite run_addresses_not_unique.
  - intros Hm Hi Hfail. apply Hinv, Hdup in Hfail. lia.
  - intros Hhost Hport Hscan Hm Hi. rewrite run_addresses_not_unique; [done..|].
    apply Hdup. lia.
Qed.

(** C5. When the probe returns a supported manufacturer and a model that
    starts with none of the supported-model entries, [validate_input] still
    returns the title: the only record logged is the warning about the
    untested model. *)
Theorem untested_model_is_only_a_warning data hub manufacturer model :
  field_checks_pass data → probe data = inr hub →
  hub_data hub !! "i_manufacturer" = Some manufacturer →
  manufacturer ∈ SUPPORTED_MANUFACTURERS →
  hub_data hub !! "i_model" = Some model →
  (∀ supported_model, supported_model ∈ SUPPORTED_MODELS →
                      String.prefix supported_model model = false) →
  validate_input data =
    ([EvHub (hub_args data); EvInitData; EvLog WARNING (MsgUntestedModel model)],
     inr {| title := CONF_NAME data |}).
Proof.
  intros Hpass Hprobe Hman Hsup Hmodel Hprefix.
  apply model_supported_false in Hprefix.
  rewrite (run_probe_returns _ _ data hub) by done.
  unfold inspect_hub, probe_events, outcome, trace. simpl.
  rewrite Hman, bool_decide_eq_true_2, Hmodel, Hprefix by done. simpl.
  unfold probe in Hprobe. by destruct (Hub (hub_args data)).
Qed.

(** C6. When the probe is reached and returns, [validate_input] fails with
    [UnsupportedHardware] if and only if the manufacturer field is missing,
    or the manufacturer is not a supported one, or the model field is
    missing. *)
Theorem unsupported_hardware_iff data hub :
  field_checks_pass data → probe data = inr hub →
  outcome (validate_input data) = inl UnsupportedHardware ↔
    hub_data hub !! "i_manufacturer" = None ∨
    (∃ manufacturer, hub_data hub !! "i_manufacturer" = Some manufacturer ∧
                     manufacturer ∉ SUPPORTED_MANUFACTURERS) ∨
    hub_data hub !! "i_model" = None.
Proof.
  intros Hpass Hprobe.
  rewrite (run_probe_returns _ _ data hub) by done.
  unfold inspect_hub, outcome. simpl.
  destruct (hub_data hub !! "i_manufacturer") as [manufacturer|]; [| naive_solver].
  case_bool_decide as Hsup; simpl.
  - destruct (hub_data hub !! "i_model") as [model|]; simpl; [| naive_solver].
    split; [done|]. intros [?|[(m & [= <-] & ?)|?]]; done.
  - split; [| done]. intros _. right. left. eauto.
Qed.

(** C7. A host shorter than 3 characters is rejected with [InvalidHost],
    whatever the other fields are. *)
Theorem short_host_is_invalid data :
  (String.length (CONF_HOST data) < 3)%nat →
  outcome (validate_input data) = inl InvalidHost.
Proof.
  intros Hshort. rewrite run_invalid_host; [done|]. unfold host_ok. lia.
Qed.

(** C8 (as the code has it). A port above 65535 is rejected with
    [InvalidPort] when the host has at least 3 characters. *)
Theorem big_port_is_invalid data :
  (3 ≤ String.length (CONF_HOST data))%nat → CONF_PORT data > 65535 →
  outcome (validate_input data) = inl InvalidPort.
Proof.
  intros Hhost Hport. rewrite run_invalid_port; [done | done |]. unfold port_ok. lia.
Qed.

(** C9. The checks are made in the order host length, port, scan interval
    (at least 5, else [ScanIntervalTooShort]), address uniqueness, hub probe,
    and the first one that fails ends the run: the reported failure is that
    of the earliest violated check, and when that is a field check the hub
    is never built. *)
Theorem earliest_violation_is_reported data r :
  earliest_violation data = Some r →
  outcome (validate_input data) = inl r ∧
  (r ≠ CannotConnect → ∀ args, EvHub args ∉ trace (validate_input data)).
Proof.
  unfold earliest_violation, ordered_checks. simpl.
  case_bool_decide as Hhost; simpl.
  2: { intros [= <-]. rewrite run_invalid_host by done. simpl. set_solver. }
  case_bool_decide as Hport; simpl.
  2: { intros [= <-]. rewrite run_invalid_port by done. simpl. set_solver. }
  case_bool_decide as Hscan; simpl.
  2: { intros [= <-]. rewrite run_scan_interval_too_short by done. simpl. set_solver. }
  case_bool_decide as Huniq; simpl.
  2: { intros [= <-]. rewrite run_addresses_not_unique by done. simpl. set_solver. }
  case_bool_decide as Hprobe; simpl; [done|].
  intros [= <-]. unfold probe_ok in Hprobe.
  destruct (probe data) as [e|hub] eqn:He; [| done].
  rewrite (run_probe_raises _ _ data e) by done. done.
Qed.

(** C10. The port check has no lower bound: with a host of at least 3
    characters and a port of at most 65535 (zero and negative ports
    included) the outcome is never [InvalidPort]; every call of the hub
    constructor receives the port of the form unchanged, and the
    constructor is called as soon as the two remaining field checks pass. *)
Theorem port_has_no_lower_bound data :
  host_ok data → CONF_PORT data ≤ 65535 →
  outcome (validate_input data) ≠ inl InvalidPort ∧
  (∀ args, EvHub args ∈ trace (validate_input data) → hub_port args = CONF_PORT data) ∧
  (scan_interval_ok data → addresses_unique data →
   EvHub (hub_args data) ∈ trace (validate_input data) ∧
   hub_port (hub_args data) = CONF_PORT data).
Proof.
  intros Hhost Hport. split_and!.
  - destruct (decide (scan_interval_ok data)) as [Hscan|Hscan];
      [| by rewrite run_scan_interval_too_short].
    destruct (decide (addresses_unique data)) as [Huniq|Huniq];
      [| by rewrite run_addresses_not_unique].
    destruct (probe data) as [e|hub] eqn:Hprobe.
    + by rewrite (run_probe_raises _ _ data e).
    + rewrite (run_probe_returns _ _ data hub) by done.
      unfold inspect_hub, outcome. simpl.
      by repeat case_match.
  - intros args [_ ->]%hub_built_inv. done.
  - intros Hscan Huniq. split; [| done]. by apply hub_built.
Qed.

End Claims.

(** ** The properties on concrete forms and hubs *)

Import Examples.

(** C1 on a form for a Primo GEN24 at 10.0.0.7:502. *)
Lemma valid_config_creates_entry_witness :
  let data := cfg "10.0.0.7" 502 1 200 10 in
  field_checks_pass data ∧
  outcome (validate (answering_hub good_data) data) = inr {| title := "Fronius" |} ∧
  outcome (step (answering_hub good_data) (Some data)) = inr (CreateEntry "Fronius" data).
Proof.
  split; [compute_done |].
  apply (valid_config_creates_entry supported_manufacturers supported_models
           (hub_impl := answering_hub good_data)
           (cfg "10.0.0.7" 502 1 200 10) good_data "Fronius" "Primo GEN24 10.0");
    compute_done.
Defined.

(** C2 on a hub whose [init_data] times out. *)
Lemma probe_exception_is_cannot_connect_witness :
  let data := cfg "10.0.0.7" 502 1 200 10 in
  field_checks_pass data ∧
  outcome (validate (unreachable_hub timeout) data) = inl CannotConnect ∧
  last (trace (validate (unreachable_hub timeout) data))
    = Some (EvLog ERROR (MsgCannotStartHub timeout)).
Proof.
  split; [compute_done |].
  apply (probe_exception_is_cannot_connect supported_manufacturers supported_models
           (hub_impl := unreachable_hub timeout) (cfg "10.0.0.7" 502 1 200 10) timeout).
  - compute_done.
  - right. exists tt. split; reflexivity.
Defined.

(** C3 as stated fails: the time-out of [init_data] reaches the user as
    [cannot_connect], not as [unknown]. *)
Lemma probe_exception_not_reported_as_unknown :
  let hub := unreachable_hub timeout in
  let data := cfg "10.0.0.7" 502 1 200 10 in
  field_checks_pass data ∧
  probe (hub_impl := hub) data = inl timeout ∧
  outcome (step hub (Some data)) = inr (ShowForm "user" {[ "base" := "cannot_connect" ]}) ∧
  outcome (step hub (Some data)) ≠ inr (ShowForm "user" {[ "base" := "unknown" ]}).
Proof.
  assert (outcome (step (unreachable_hub timeout) (Some (cfg "10.0.0.7" 502 1 200 10)))
          = inr (ShowForm "user" {[ "base" := "cannot_connect" ]})) as Hout
    by (vm_compute; reflexivity).
  split_and!; [compute_done | reflexivity | exact Hout |].
  simpl. rewrite Hout. intros Heq. apply cannot_connect_not_unknown. congruence.
Qed.

(** C3 as amended, on the same hub. *)
Lemma probe_exception_reported_as_cannot_connect_witness :
  let hub := unreachable_hub timeout in
  let data := cfg "10.0.0.7" 502 1 200 10 in
  field_checks_pass data ∧
  probe (hub_impl := hub) data = inl timeout ∧
  outcome (step hub (Some data)) = inr (ShowForm "user" {[ "base" := "cannot_connect" ]}) ∧
  outcome (step hub (Some data)) ≠ inr (ShowForm "user" {[ "base" := "unknown" ]}) ∧
  EvLog ERROR (MsgCannotStartHub timeout) ∈ trace (step hub (Some data)) ∧
  EvLog EXCEPTION MsgUnexpectedException ∉ trace (step hub (Some data)).
Proof.
  split; [compute_done |]. split; [reflexivity |].
  apply (probe_exception_reported_as_cannot_connect
           supported_manufacturers supported_models
           (hub_impl := unreachable_hub timeout) (cfg "10.0.0.7" 502 1 200 10) timeout);
    compute_done.
Defined.

(** C4 on a form with meter and inverter both at address 5. *)
Lemma address_uniqueness_check_witness :
  let data := cfg "10.0.0.7" 502 5 5 10 in
  host_ok data ∧ port_ok data ∧ scan_interval_ok data ∧
  outcome (validate (answering_hub good_data) data) = inl AddressesNotUnique.
Proof.
  split_and!; [compute_done | compute_done | compute_done |].
  apply (address_uniqueness_check supported_manufacturers supported_models
           (hub_impl := answering_hub good_data) (cfg "10.0.0.7" 502 5 5 10));
    compute_done.
Defined.

(** C5 on a hub that reports a Fronius Tauro, a model outside the table. *)
Lemma untested_model_is_only_a_warning_witness :
  let data := cfg "10.0.0.7" 502 1 200 10 in
  field_checks_pass data ∧
  validate (answering_hub untested_data) data =
    ([EvHub (hub_args data); EvInitData; EvLog WARNING (MsgUntestedModel "Tauro 50-3-D")],
     inr {| title := "Fronius" |}).
Proof.
  split; [compute_done |].
  apply (untested_model_is_only_a_warning supported_manufacturers supported_models
           (hub_impl := answering_hub untested_data)
           (cfg "10.0.0.7" 502 1 200 10) untested_data "Fronius" "Tauro 50-3-D");
    try compute_done.
  intros supported_model Hin. unfold supported_models in Hin.
  repeat (apply elem_of_cons in Hin as [-> | Hin]; [reflexivity |]).
  by apply elem_of_nil in Hin.
Defined.

(** C6 on a hub that reports another manufacturer. *)
Lemma unsupported_hardware_iff_witness :
  let data := cfg "10.0.0.7" 502 1 200 10 in
  field_checks_pass data ∧
  probe (hub_impl := answering_hub foreign_data) data = inr foreign_data ∧
  outcome (validate (answering_hub foreign_data) data) = inl UnsupportedHardware.
Proof.
  split; [compute_done |]. split; [reflexivity |].
  apply (unsupported_hardware_iff supported_manufacturers supported_models
           (hub_impl := answering_hub foreign_data)
           (cfg "10.0.0.7" 502 1 200 10) foreign_data); [compute_done | reflexivity |].
  right. left. exists "SolarEdge". split; compute_done.
Defined.

(** C7 on a two-character host. *)
Lemma short_host_is_invalid_witness :
  let data := cfg "ab" 502 1 200 10 in
  (String.length (CONF_HOST data) < 3)%nat ∧
  outcome (validate (answering_hub good_data) data) = inl InvalidHost.
Proof.
  split; [compute_done |].
  apply (short_host_is_invalid supported_manufacturers supported_models
           (hub_impl := answering_hub good_data) (cfg "ab" 502 1 200 10)).
  compute_done.
Defined.

(** C8 as stated fails: with a two-character host, a port above 65535 is
    not reported, the host is. *)
Lemma big_port_with_short_host :
  let data := cfg "ab" 70000 1 200 10 in
  CONF_PORT data > 65535 ∧
  outcome (validate (answering_hub good_data) data) = inl InvalidHost ∧
  outcome (validate (answering_hub good_data) data) ≠ inl InvalidPort.
Proof.
  split; [compute_done |]. split; [reflexivity | discriminate].
Qed.

(** C8 as amended, on port 70000. *)
Lemma big_port_is_invalid_witness :
  let data := cfg "10.0.0.7" 70000 1 200 10 in
  (3 ≤ String.length (CONF_HOST data))%nat ∧ CONF_PORT data > 65535 ∧
  outcome (validate (answering_hub good_data) data) = inl InvalidPort.
Proof.
  split; [compute_done |]. split; [compute_done |].
  apply (big_port_is_invalid supported_manufacturers supported_models
           (hub_impl := answering_hub good_data) (cfg "10.0.0.7" 70000 1 200 10));
    compute_done.
Defined.

(** C9 on a form that violates the port, scan-interval and uniqueness
    checks at once, in front of a hub that would not answer either. *)
Lemma earliest_violation_is_reported_witness :
  let data := cfg "10.0.0.7" 70000 5 5 1 in
  earliest_violation (hub_impl := unreachable_hub timeout) data = Some InvalidPort ∧
  outcome (validate (unreachable_hub timeout) data) = inl InvalidPort ∧
  (InvalidPort ≠ CannotConnect →
   ∀ args, EvHub args ∉ trace (validate (unreachable_hub timeout) data)).
Proof.
  split; [compute_done |].
  apply (earliest_violation_is_reported supported_manufacturers supported_models
           (hub_impl := unreachable_hub timeout) (cfg "10.0.0.7" 70000 5 5 1) InvalidPort).
  compute_done.
Defined.

(** C10 on a negative port. *)
Lemma port_has_no_lower_bound_witness :
  let data := cfg "10.0.0.7" (-1) 1 200 10 in
  host_ok data ∧ CONF_PORT data ≤ 65535 ∧
  outcome (validate (answering_hub good_data) data) ≠ inl InvalidPort ∧
  (∀ args, EvHub args ∈ trace (validate (answering_hub good_data) data) →
           hub_port args = -1) ∧
  (scan_interval_ok data → addresses_unique data →
   EvHub (hub_args data) ∈ trace (validate (answering_hub good_data) data) ∧
   hub_port (hub_args data) = -1).
Proof.
  split; [compute_done |]. split; [compute_done |].
  apply (port_has_no_lower_bound supported_manufacturers supported_models
           (hub_impl := answering_hub good_data) (cfg "10.0.0.7" (-1) 1 200 10));
    compute_done.
Defined.

(** * Further properties of the module *)

(** ** Every run of [validate_input] is one of six *)

Section Cases.

Variable SUPPORTED_MANUFACTURERS : list string.
Variable SUPPORTED_MODELS : list string.

Context `{hub_impl : HubInterface}.

Abbreviation validate_input := (validate_input SUPPORTED_MANUFACTURERS SUPPORTED_MODELS).
Abbreviation async_step_user := (async_step_user SUPPORTED_MANUFACTURERS SUPPORTED_MODELS).
Abbreviation inspect := (inspect_hub SUPPORTED_MANUFACTURERS SUPPORTED_MODELS).

Implicit Types data : ConnectionConfig.

Lemma validate_input_run data :
  run_of SUPPORTED_MANUFACTURERS SUPPORTED_MODELS data (validate_input data).
Proof.
  destruct (decide (host_ok data)) as [Hhost|Hhost];
    [| rewrite run_invalid_host by done; by constructor].
  destruct (decide (port_ok data)) as [Hport|Hport];
    [| rewrite run_invalid_port by done; by constructor].
  destruct (decide (scan_interval_ok data)) as [Hscan|Hscan];
    [| rewrite run_scan_interval_too_short by done; by constructor].
  destruct (decide (addresses_unique data)) as [Huniq|Huniq];
    [| rewrite run_addresses_not_unique by done; by constructor].
  assert (field_checks_pass data) as Hpass by done.
  destruct (probe data) as [e|hub] eqn:Hprobe.
  - rewrite (run_probe_raises _ _ data e) by done. by constructor.
  - rewrite (run_probe_returns _ _ data hub) by done. by constructor.
Qed.

(** What [inspect_hub] can yield. *)
Lemma inspect_outcome data hub :
  outcome (inspect data hub) = inl UnsupportedHardware ∨
  outcome (inspect data hub) = inr {| title := CONF_NAME data |}.
Proof.
  unfold inspect_hub, outcome. repeat case_match; simpl; auto.
Qed.

Lemma inspect_success data hub r :
  outcome (inspect data hub) = inr r ↔
  (∃ manufacturer model,
     hub_data hub !! "i_manufacturer" = Some manufacturer ∧
     manufacturer ∈ SUPPORTED_MANUFACTURERS ∧
     hub_data hub !! "i_model" = Some model) ∧
  r = {| title := CONF_NAME data |}.
Proof.
  unfold inspect_hub, outcome.
  destruct (hub_data hub !! "i_manufacturer") as [manufacturer|]; simpl;
    [| naive_solver].
  case_bool_decide as Hsup; simpl; [| naive_solver].
  destruct (hub_data hub !! "i_model") as [model|]; simpl; naive_solver.
Qed.

(** X1. [InvalidHost] is the outcome exactly for hosts of fewer than 3
    characters: no later stage produces it, not even a hub that raises it. *)
Theorem invalid_host_iff data :
  outcome (validate_input data) = inl InvalidHost ↔
  (String.length (CONF_HOST data) < 3)%nat.
Proof.
  destruct (validate_input_run data) as [Hh|Hh Hp|Hh Hp Hs|Hh Hp Hs Hu|e Hpass He|hub Hpass He];
    try destruct Hpass as (Hh & Hp & Hs & Hu);
    unfold host_ok in *; simpl; try (split; [done | lia]).
  - split; [lia | done].
  - destruct (inspect_outcome data hub) as [->| ->]; (split; [done | lia]).
Qed.

(** X2. [InvalidPort] is the outcome exactly when the host has at least 3
    characters and the port is above 65535. *)
Theorem invalid_port_iff data :
  outcome (validate_input data) = inl InvalidPort ↔
  (3 ≤ String.length (CONF_HOST data))%nat ∧ CONF_PORT data > 65535.
Proof.
  destruct (validate_input_run data) as [Hh|Hh Hp|Hh Hp Hs|Hh Hp Hs Hu|e Hpass He|hub Hpass He];
    try destruct Hpass as (Hh & Hp & Hs & Hu);
    unfold host_ok, port_ok in *; simpl; try (split; [done | lia]).
  - split; [lia | done].
  - destruct (inspect_outcome data hub) as [->| ->]; (split; [done | lia]).
Qed.

(** X3. [ScanIntervalTooShort] is the outcome exactly when the host and
    port checks pass and the scan interval is below 5. *)
Theorem scan_interval_too_short_iff data :
  outcome (validate_input data) = inl ScanIntervalTooShort ↔
  (3 ≤ String.length (CONF_HOST data))%nat ∧
  CONF_PORT data ≤ 65535 ∧
  CONF_SCAN_INTERVAL data < 5.
Proof.
  destruct (validate_input_run data) as [Hh|Hh Hp|Hh Hp Hs|Hh Hp Hs Hu|e Hpass He|hub Hpass He];
    try destruct Hpass as (Hh & Hp & Hs & Hu);
    unfold host_ok, port_ok, scan_interval_ok in *; simpl; try (split; [done | lia]).
  - split; [lia | done].
  - destruct (inspect_outcome data hub) as [->| ->]; (split; [done | lia]).
Qed.

(** X4. [CannotConnect] is the outcome exactly when the four field checks
    pass and building the hub or awaiting [init_data] raises. *)
Theorem cannot_connect_iff data :
  outcome (validate_input data) = inl CannotConnect ↔
  field_checks_pass data ∧ ∃ e, probe data = inl e.
Proof.
  destruct (validate_input_run data) as [Hh|Hh Hp|Hh Hp Hs|Hh Hp Hs Hu|e Hpass He|hub Hpass He];
    simpl; try (split; [done | by intros [(? & ? & ? & ?) _]]).
  - split; [eauto | done].
  - destruct (inspect_outcome data hub) as [->| ->];
      (split; [done | intros [_ [e He']]; congruence]).
Qed.

(** X5. [validate_input] returns exactly when the four field checks pass,
    the probe returns, the manufacturer is present and supported and the
    model is present; what it returns is then the title made of the
    config's name, whatever the hub reported. *)
Theorem validate_success_iff data r :
  outcome (validate_input data) = inr r ↔
  field_checks_pass data ∧
  (∃ hub manufacturer model,
     probe data = inr hub ∧
     hub_data hub !! "i_manufacturer" = Some manufacturer ∧
     manufacturer ∈ SUPPORTED_MANUFACTURERS ∧
     hub_data hub !! "i_model" = Some model) ∧
  r = {| title := CONF_NAME data |}.
Proof.
  destruct (validate_input_run data) as [Hh|Hh Hp|Hh Hp Hs|Hh Hp Hs Hu|e Hpass He|hub Hpass He];
    simpl; try (split; [done | by intros [(? & ? & ? & ?) _]]).
  - split; [done | intros (_ & (hub & ? & ? & ? & _) & _); congruence].
  - rewrite inspect_success. split.
    + intros [(manufacturer & model & ? & ? & ?) ->].
      split_and!; [done | by exists hub, manufacturer, model | done].
    + intros (_ & (hub' & manufacturer & model & Hhub & ? & ? & ?) & ->).
      assert (hub' = hub) as -> by congruence.
      split; [by exists manufacturer, model | done].
Qed.

Lemma run_outcome_typed data cls :
  outcome (validate_input data) ≠ inl (OtherException cls).
Proof.
  destruct (validate_input_run data) as [Hh|Hh Hp|Hh Hp Hs|Hh Hp Hs Hu|e Hpass He|hub Hpass He];
    simpl; try done.
  by destruct (inspect_outcome data hub) as [->| ->].
Qed.

(** X6. Whatever the hub raises, [validate_input] itself fails only with
    one of the six exception classes of the module. *)
Theorem failures_are_typed data :
  ∀ e, outcome (validate_input data) = inl e →
       e ∈ [CannotConnect; InvalidHost; InvalidPort; UnsupportedHardware;
            AddressesNotUnique; ScanIntervalTooShort].
Proof.
  intros e He. pose proof (run_outcome_typed data) as Htyped. rewrite He in Htyped.
  destruct e; [set_solver.. | by destruct (Htyped cls)].
Qed.

(** ** What a run does to the hub *)

Lemma hub_calls_app t1 t2 : hub_calls (t1 ++ t2) = hub_calls t1 ++ hub_calls t2.
Proof. apply List.filter_app. Qed.

Lemma hub_calls_probe_events data : hub_calls (probe_events data) = probe_events data.
Proof. unfold probe_events. by case_match. Qed.

Lemma hub_calls_inspect data hub : hub_calls (trace (inspect data hub)) = [].
Proof. unfold inspect_hub, trace. by repeat case_match. Qed.

(** X7. The hub is probed at most once and never retried: a run that fails
    a field check makes no call into the hub; otherwise the constructor is
    called once with [hub_args], and [init_data] is awaited once, after it,
    only if the constructor returned. *)
Theorem hub_probed_at_most_once data :
  hub_calls (trace (validate_input data)) =
    if bool_decide (field_checks_pass data) then
      match Hub (hub_args data) with
      | inl _ => [EvHub (hub_args data)]
      | inr _ => [EvHub (hub_args data); EvInitData]
      end
    else [].
Proof.
  destruct (validate_input_run data) as [Hh|Hh Hp|Hh Hp Hs|Hh Hp Hs Hu|e Hpass He|hub Hpass He];
    simpl.
  1-4: by rewrite bool_decide_eq_false_2 by (by intros (? & ? & ? & ?)).
  - rewrite bool_decide_eq_true_2 by done.
    by rewrite hub_calls_app, hub_calls_probe_events, app_nil_r.
  - rewrite bool_decide_eq_true_2 by done.
    by rewrite hub_calls_app, hub_calls_probe_events, hub_calls_inspect, app_nil_r.
Qed.

(** X8. What the hub constructor can rely on: whenever it is called, its
    host has at least 3 characters, its port is at most 65535, its scan
    interval is at least 5, it gets at most one meter address, that address
    is positive, and the inverter address is not among the meter addresses. *)
Theorem hub_receives_checked_arguments data args :
  EvHub args ∈ trace (validate_input data) →
  (3 ≤ String.length (hub_host args))%nat ∧
  hub_port args ≤ 65535 ∧
  5 ≤ hub_scan_interval args ∧
  (length (hub_meter_addresses args) ≤ 1)%nat ∧
  (∀ a, a ∈ hub_meter_addresses args → 0 < a) ∧
  hub_inverter_unit_id args ∉ hub_meter_addresses args.
Proof.
  intros [(Hh & Hp & Hs & Hu) ->]%hub_built_inv. simpl.
  unfold addresses_unique, all_addresses in Hu. unfold meter_addresses in *.
  split_and!; try done.
  - case_bool_decide; simpl; lia.
  - intros a. case_bool_decide; [| by intros ?%elem_of_nil].
    intros ->%list_elem_of_singleton. lia.
  - case_bool_decide; [| by intros ?%elem_of_nil].
    simpl in Hu. apply NoDup_cons in Hu as [Hne _].
    rewrite list_elem_of_singleton in *. congruence.
Qed.

(** ** What a run logs *)

(** X9. A run leaves no event at all (no log record, no call into the hub)
    exactly when the form is rejected by the host, port or scan-interval
    check. *)
Theorem silent_runs_iff data :
  trace (validate_input data) = [] ↔
  outcome (validate_input data) = inl InvalidHost ∨
  outcome (validate_input data) = inl InvalidPort ∨
  outcome (validate_input data) = inl ScanIntervalTooShort.
Proof.
  destruct (validate_input_run data) as [Hh|Hh Hp|Hh Hp Hs|Hh Hp Hs Hu|e Hpass He|hub Hpass He];
    simpl; try naive_solver.
  - split; [| naive_solver]. unfold probe_events. by case_match.
  - split.
    + unfold probe_events. by case_match.
    + destruct (inspect_outcome data hub) as [->| ->]; naive_solver.
Qed.

Lemma probe_events_no_log data lvl msg : EvLog lvl msg ∉ probe_events data.
Proof. unfold probe_events. case_match; set_solver. Qed.

(** X10. A record at error level is logged exactly in the runs that end in
    [AddressesNotUnique], [CannotConnect] or [UnsupportedHardware]; a run
    that returns logs no error. *)
Theorem error_logged_iff data :
  (∃ msg, EvLog ERROR msg ∈ trace (validate_input data)) ↔
  outcome (validate_input data) = inl AddressesNotUnique ∨
  outcome (validate_input data) = inl CannotConnect ∨
  outcome (validate_input data) = inl UnsupportedHardware.
Proof.
  destruct (validate_input_run data) as [Hh|Hh Hp|Hh Hp Hs|Hh Hp Hs Hu|e Hpass He|hub Hpass He];
    simpl.
  1-3: split; [intros [msg Hin]; set_solver | naive_solver].
  - split; [auto | intros _; eexists; apply list_elem_of_here].
  - split; [auto | intros _]. eexists. apply elem_of_app. right. apply list_elem_of_here.
  - split.
    + intros [msg [Hin|Hin]%elem_of_app]; [by apply probe_events_no_log in Hin |].
      right. right. revert Hin. unfold inspect_hub, trace, outcome.
      repeat case_match; simpl; set_solver.
    + intros Hout. destruct (inspect_outcome data hub) as [Hhw|Hok];
        [| rewrite Hok in Hout; by destruct Hout as [?|[?|?]]].
      clear Hout. revert Hhw. unfold inspect_hub, trace, outcome.
      repeat case_match; simpl; try done; intros _;
        eexists; apply elem_of_app; right; apply list_elem_of_here.
Qed.

(** X11. The only warning of the module is the one about an untested
    model: it is logged exactly in the runs that return and in which no
    entry of the supported-model table is a prefix of the reported model. *)
Theorem warning_logged_iff data msg :
  EvLog WARNING msg ∈ trace (validate_input data) ↔
  ∃ hub model,
    probe data = inr hub ∧
    outcome (validate_input data) = inr {| title := CONF_NAME data |} ∧
    hub_data hub !! "i_model" = Some model ∧
    (∀ supported_model, supported_model ∈ SUPPORTED_MODELS →
                        String.prefix supported_model model = false) ∧
    msg = MsgUntestedModel model.
Proof.
  destruct (validate_input_run data) as [Hh|Hh Hp|Hh Hp Hs|Hh Hp Hs Hu|e Hpass He|hub Hpass He];
    simpl.
  1-4: split; [set_solver | by intros (? & ? & ? & ? & _)].
  - split; [| by intros (? & ? & ? & ? & _)].
    intros [Hin|Hin]%elem_of_app; [by apply probe_events_no_log in Hin | set_solver].
  - split.
    + intros [Hin|Hin]%elem_of_app; [by apply probe_events_no_log in Hin |].
      revert Hin. unfold inspect_hub, trace, outcome.
      destruct (hub_data hub !! "i_manufacturer") as [manufacturer|]; [| set_solver].
      case_bool_decide; [| set_solver].
      destruct (hub_data hub !! "i_model") as [model|] eqn:Hmodel; [| set_solver].
      destruct (model_supported SUPPORTED_MODELS model) eqn:Hsup; simpl; [set_solver |].
      intros [= ->]%list_elem_of_singleton.
      exists hub, model. split_and!; simpl; try done.
      by apply model_supported_false.
    + intros (hub' & model & Hhub & Hout & Hmodel & Hprefix & ->).
      assert (hub' = hub) as -> by congruence.
      apply model_supported_false in Hprefix.
      apply elem_of_app. right. revert Hout. unfold inspect_hub, trace, outcome.
      rewrite Hmodel.
      destruct (hub_data hub !! "i_manufacturer") as [manufacturer|]; [| done].
      case_bool_decide; [| done]. rewrite Hprefix. simpl. intros _.
      apply list_elem_of_here.
Qed.

(** ** The supported-model loop *)

Lemma prefix_append s1 s2 :
  String.prefix s1 s2 = true ↔ ∃ rest, s2 = String.append s1 rest.
Proof.
  revert s2. induction s1 as [|a s1 IH]; intros [|b s2]; simpl.
  - split; [by exists EmptyString | done].
  - split; [by eexists | done].
  - split; [done | by intros [rest ?]].
  - destruct (Ascii.ascii_dec a b) as [->|Hne].
    + rewrite IH. split; intros [rest Hrest]; exists rest.
      * by rewrite Hrest.
      * change (String b s2 = String b (String.append s1 rest)) in Hrest. congruence.
    + split; [done | intros [rest Hrest]].
      change (String b s2 = String a (String.append s1 rest)) in Hrest. congruence.
Qed.

(** X12. The loop over the table, which sets a flag and never leaves early,
    counts a model as supported exactly when the model is some entry of the
    table followed by any further characters. *)
Theorem model_supported_iff_prefix model :
  model_supported SUPPORTED_MODELS model = true ↔
  ∃ supported_model rest,
    supported_model ∈ SUPPORTED_MODELS ∧ model = String.append supported_model rest.
Proof.
  split.
  - intros Hsup.
    destruct (decide (Exists (λ sm, String.prefix sm model = true) SUPPORTED_MODELS))
      as [Hex|Hnex].
    + apply Exists_exists in Hex as (sm & Hin & [rest ->]%prefix_append). eauto.
    + assert (model_supported SUPPORTED_MODELS model = false) as Hfalse; [| congruence].
      apply model_supported_false. intros sm Hin.
      destruct (String.prefix sm model) eqn:Hsm; [| done].
      destruct Hnex. apply Exists_exists. eauto.
  - intros (sm & rest & Hin & ->).
    destruct (model_supported SUPPORTED_MODELS (String.append sm rest)) eqn:Hsup; [done|].
    rewrite model_supported_false in Hsup. specialize (Hsup sm Hin).
    assert (String.prefix sm (String.append sm rest) = true) as Hpre
      by (apply prefix_append; eauto).
    congruence.
Qed.

(** ** The step of the flow *)

Lemma step_outcome data :
  outcome (async_step_user (Some data)) =
    match outcome (validate_input data) with
    | inr info => inr (CreateEntry (title info) data)
    | inl e =>
        inr (ShowForm "user"
               match e with
               | CannotConnect => {[ "base" := "cannot_connect" ]}
               | InvalidPort => {[ "base" := "invalid_port" ]}
               | InvalidHost => {[ "host" := "invalid_host" ]}
               | ScanIntervalTooShort => {[ "base" := "scan_interval_too_short" ]}
               | UnsupportedHardware => {[ "base" := "unsupported_hardware" ]}
               | AddressesNotUnique => {[ "base" := "modbus_address_conflict" ]}
               | OtherException _ => {[ "base" := "unknown" ]}
               end)
    end.
Proof.
  unfold async_step_user, outcome. simpl.
  destruct (validate_input data) as [t [e|info]]; simpl; [| done].
  destruct e; simpl; by rewrite insert_empty.
Qed.

Lemma step_trace data :
  trace (async_step_user (Some data)) = trace (validate_input data).
Proof.
  pose proof (run_outcome_typed data) as Htyped.
  unfold async_step_user, trace, outcome in *. simpl.
  destruct (validate_input data) as [t [e|info]]; simpl; [| by rewrite !app_nil_r].
  destruct e; simpl; rewrite ?app_nil_r; try done. by destruct (Htyped cls).
Qed.


(** X14. An entry is created only for a submission that went through the
    whole validation, and it is always the submission itself under its own
    name: the result is [CreateEntry t d] exactly when [d] is the submitted
    config, [t] its name, the four field checks pass, the probe returns, the
    manufacturer is present and supported and the model is present. *)
Theorem entry_created_iff data t d :
  outcome (async_step_user (Some data)) = inr (CreateEntry t d) ↔
  d = data ∧ t = CONF_NAME data ∧
  field_checks_pass data ∧
  ∃ hub manufacturer model,
    probe data = inr hub ∧
    hub_data hub !! "i_manufacturer" = Some manufacturer ∧
    manufacturer ∈ SUPPORTED_MANUFACTURERS ∧
    hub_data hub !! "i_model" = Some model.
Proof.
  rewrite step_outcome.
  destruct (validate_input_run data) as [Hh|Hh Hp|Hh Hp Hs|Hh Hp Hs Hu|e Hpass He|hub Hpass He];
    simpl; try (split; [done | by intros (_ & _ & (? & ? & ? & ?) & _)]).
  - split; [done | intros (_ & _ & _ & hub & ? & ? & ? & _); congruence].
  - destruct (outcome (inspect data hub)) as [e|info] eqn:Hout.
    + split; [done |]. intros (_ & _ & _ & hub' & manufacturer & model & Hhub & ? & ? & ?).
      assert (hub' = hub) as -> by congruence.
      assert (outcome (inspect data hub) = inr {| title := CONF_NAME data |}) as Hok
        by (apply inspect_success; split; [by exists manufacturer, model | done]).
      congruence.
    + apply inspect_success in Hout as [(manufacturer & model & ? & ? & ?) ->]. simpl.
      split.
      * intros [= <- <-]. split_and!; try done. by exists hub, manufacturer, model.
      * by intros (-> & -> & _).
Qed.

(** X15. How a failed field check comes back to the user: a host that is
    too short is reported on the [host] field, the three other field checks
    on the form as a whole ([base]), each with its own code. *)
Theorem field_errors_on_form data :
  ((String.length (CONF_HOST data) < 3)%nat →
   outcome (async_step_user (Some data))
     = inr (ShowForm "user" {[ "host" := "invalid_host" ]})) ∧
  (host_ok data → CONF_PORT data > 65535 →
   outcome (async_step_user (Some data))
     = inr (ShowForm "user" {[ "base" := "invalid_port" ]})) ∧
  (host_ok data → port_ok data → CONF_SCAN_INTERVAL data < 5 →
   outcome (async_step_user (Some data))
     = inr (ShowForm "user" {[ "base" := "scan_interval_too_short" ]})) ∧
  (host_ok data → port_ok data → scan_interval_ok data →
   ¬ NoDup (all_addresses data) →
   outcome (async_step_user (Some data))
     = inr (ShowForm "user" {[ "base" := "modbus_address_conflict" ]})).
Proof.
  rewrite step_outcome. split_and!.
  - intros Hshort. rewrite run_invalid_host; [done |]. unfold host_ok. lia.
  - intros Hh Hport. rewrite run_invalid_port; [done | done |]. unfold port_ok. lia.
  - intros Hh Hp Hscan.
    rewrite run_scan_interval_too_short; [done | done | done |].
    unfold scan_interval_ok. lia.
  - intros Hh Hp Hs Hdup. by rewrite run_addresses_not_unique.
Qed.

(** X16. When the probe returns but the manufacturer is missing or not a
    supported one, or the model is missing, the form comes back with the
    code [unsupported_hardware] under [base]. *)
Theorem unsupported_hardware_on_form data hub :
  field_checks_pass data → probe data = inr hub →
  (hub_data hub !! "i_manufacturer" = None ∨
   (∃ manufacturer, hub_data hub !! "i_manufacturer" = Some manufacturer ∧
                    manufacturer ∉ SUPPORTED_MANUFACTURERS) ∨
   hub_data hub !! "i_model" = None) →
  outcome (async_step_user (Some data))
    = inr (ShowForm "user" {[ "base" := "unsupported_hardware" ]}).
Proof.
  intros Hpass Hprobe Hhw.
  rewrite step_outcome, (run_probe_returns _ _ data hub) by done. simpl.
  destruct (inspect_outcome data hub) as [-> | Hok]; [done |].
  apply inspect_success in Hok as [(manufacturer & model & Hman & Hsup & Hmodel) _].
  destruct Hhw as [Hnone | [(m & Hm & Hnot) | Hnone]]; congruence.
Qed.

(** X17. A form shown after a submission carries exactly one error: the
    first check that failed.  The error sits on the [host] field exactly
    when the host has fewer than 3 characters, and on [base] otherwise. *)
Theorem form_has_exactly_one_error data step_id errors :
  outcome (async_step_user (Some data)) = inr (ShowForm step_id errors) →
  size errors = 1%nat ∧
  (is_Some (errors !! "host") ↔ (String.length (CONF_HOST data) < 3)%nat) ∧
  (is_Some (errors !! "base") ↔ (3 ≤ String.length (CONF_HOST data))%nat).
Proof.
  rewrite step_outcome.
  assert (∀ code : string,
    size ({[ "base" := code ]} : gmap string string) = 1%nat ∧
    ¬ is_Some (({[ "base" := code ]} : gmap string string) !! "host") ∧
    is_Some (({[ "base" := code ]} : gmap string string) !! "base")) as Hbase.
  { intros code. rewrite map_size_singleton, lookup_singleton_eq, lookup_singleton_ne by done.
    split_and!; [done | by intros [? ?] | by eexists]. }
  assert (∀ code : string, (3 ≤ String.length (CONF_HOST data))%nat →
    size ({[ "base" := code ]} : gmap string string) = 1%nat ∧
    (is_Some (({[ "base" := code ]} : gmap string string) !! "host")
       ↔ (String.length (CONF_HOST data) < 3)%nat) ∧
    (is_Some (({[ "base" := code ]} : gmap string string) !! "base")
       ↔ (3 ≤ String.length (CONF_HOST data))%nat)) as Hform.
  { intros code Hlen. destruct (Hbase code) as (Hsz & Hnh & Hb).
    split_and!; [exact Hsz | split; [intros Hs'; destruct (Hnh Hs') | lia] |
                 split; [intros _; exact Hlen | intros _; exact Hb]]. }
  clear Hbase.
  destruct (validate_input_run data) as [Hh|Hh Hp|Hh Hp Hs|Hh Hp Hs Hu|e Hpass He|hub Hpass He];
    try destruct Hpass as (Hh & Hp & Hs & Hu); unfold host_ok in Hh; simpl.
  - intros [= <- <-].
    rewrite map_size_singleton, lookup_singleton_eq, lookup_singleton_ne by done.
    split_and!; [reflexivity | split; [lia | by eexists] | split; [by intros [? ?] | lia]].
  - intros [= <- <-]. by apply Hform.
  - intros [= <- <-]. by apply Hform.
  - intros [= <- <-]. by apply Hform.
  - intros [= <- <-]. by apply Hform.
  - destruct (inspect_outcome data hub) as [-> | ->]; [| done].
    intros [= <- <-]. by apply Hform.
Qed.

(** X18. With a hub whose data fields are strings, the generic clause of
    the step is never taken: the step adds no event to those of
    [validate_input], never logs the "Unexpected exception" record and
    never shows the code [unknown]. *)
Theorem unknown_is_never_reported user_input :
  match user_input with
  | Some data => trace (async_step_user user_input) = trace (validate_input data)
  | None => trace (async_step_user user_input) = []
  end ∧
  (EvLog EXCEPTION MsgUnexpectedException ∉ trace (async_step_user user_input)) ∧
  (∀ step_id errors,
     outcome (async_step_user user_input) = inr (ShowForm step_id errors) →
     errors !! "base" ≠ Some "unknown").
Proof.
  destruct user_input as [data|];
    [| split_and!; [done | by intros ?%elem_of_nil | by intros ? ? [= <- <-]]].
  split_and!.
  - apply step_trace.
  - rewrite step_trace.
    destruct (validate_input_run data) as [Hh|Hh Hp|Hh Hp Hs|Hh Hp Hs Hu|e Hpass He|hub Hpass He];
      simpl; try set_solver.
    + intros [Hin|Hin]%elem_of_app; [by apply probe_events_no_log in Hin | set_solver].
    + intros [Hin|Hin]%elem_of_app; [by apply probe_events_no_log in Hin |].
      revert Hin. unfold inspect_hub, trace. repeat case_match; set_solver.
  - intros step_id errors. rewrite step_outcome.
    pose proof (run_outcome_typed data) as Htyped.
    destruct (outcome (validate_input data)) as [e|info]; [| done].
    destruct e; intros [= <- <-];
      rewrite ?lookup_singleton_eq, ?lookup_singleton_ne by done; try done.
    by destruct (Htyped cls).
Qed.

(** X19. When the probe returns, the error record names the first thing
    that is wrong with the hardware: a missing manufacturer; else a
    manufacturer that is not supported (the model is then not looked at);
    else a missing model. *)
Theorem hardware_error_names_cause data hub msg :
  field_checks_pass data → probe data = inr hub →
  EvLog ERROR msg ∈ trace (validate_input data) ↔
    (msg = MsgNoManufacturer ∧ hub_data hub !! "i_manufacturer" = None) ∨
    (∃ manufacturer,
       msg = MsgUnsupportedManufacturer manufacturer ∧
       hub_data hub !! "i_manufacturer" = Some manufacturer ∧
       manufacturer ∉ SUPPORTED_MANUFACTURERS) ∨
    (∃ manufacturer,
       msg = MsgNoModel ∧
       hub_data hub !! "i_manufacturer" = Some manufacturer ∧
       manufacturer ∈ SUPPORTED_MANUFACTURERS ∧
       hub_data hub !! "i_model" = None).
Proof.
  intros Hpass Hprobe. rewrite (run_probe_returns _ _ data hub) by done. simpl.
  rewrite elem_of_app.
  assert (EvLog ERROR msg ∈ probe_events data ↔ False) as ->
    by (split; [apply probe_events_no_log | done]).
  unfold inspect_hub, trace.
  destruct (hub_data hub !! "i_manufacturer") as [manufacturer|]; simpl.
  - case_bool_decide as Hsup; simpl.
    + destruct (hub_data hub !! "i_model") as [model|]; simpl.
      * destruct (model_supported SUPPORTED_MODELS model); simpl.
        -- rewrite elem_of_nil. naive_solver.
        -- rewrite list_elem_of_singleton. naive_solver.
      * rewrite list_elem_of_singleton. naive_solver.
    + rewrite list_elem_of_singleton. naive_solver.
  - rewrite list_elem_of_singleton. naive_solver.
Qed.

End Cases.

(** ** The further properties on concrete forms and hubs *)

(** X6 on a hub whose [init_data] times out. *)
Lemma failures_are_typed_witness :
  let data := cfg "10.0.0.7" 502 1 200 10 in
  outcome (validate (unreachable_hub timeout) data) = inl CannotConnect ∧
  CannotConnect ∈ [CannotConnect; InvalidHost; InvalidPort; UnsupportedHardware;
                   AddressesNotUnique; ScanIntervalTooShort].
Proof.
  split; [reflexivity |].
  apply (failures_are_typed supported_manufacturers supported_models
           (hub_impl := unreachable_hub timeout) (cfg "10.0.0.7" 502 1 200 10) CannotConnect).
  reflexivity.
Defined.

(** X8 on a form with a meter at address 200. *)
Lemma hub_receives_checked_arguments_witness :
  let data := cfg "10.0.0.7" 502 1 200 10 in
  let args := hub_args data in
  EvHub args ∈ trace (validate (answering_hub good_data) data) ∧
  (3 ≤ String.length (hub_host args))%nat ∧
  hub_port args ≤ 65535 ∧
  5 ≤ hub_scan_interval args ∧
  (length (hub_meter_addresses args) ≤ 1)%nat ∧
  (∀ a, a ∈ hub_meter_addresses args → 0 < a) ∧
  hub_inverter_unit_id args ∉ hub_meter_addresses args.
Proof.
  assert (EvHub (hub_args (cfg "10.0.0.7" 502 1 200 10))
            ∈ trace (validate (answering_hub good_data) (cfg "10.0.0.7" 502 1 200 10)))
    as Hcall by (vm_compute; apply list_elem_of_here).
  split; [exact Hcall |].
  exact (hub_receives_checked_arguments supported_manufacturers supported_models
           (hub_impl := answering_hub good_data) (cfg "10.0.0.7" 502 1 200 10)
           (hub_args (cfg "10.0.0.7" 502 1 200 10)) Hcall).
Defined.

(** X15 on a form with meter and inverter both at address 5. *)
Lemma field_errors_on_form_witness :
  let data := cfg "10.0.0.7" 502 5 5 10 in
  host_ok data ∧ port_ok data ∧ scan_interval_ok data ∧ ¬ NoDup (all_addresses data) ∧
  outcome (step (answering_hub good_data) (Some data))
    = inr (ShowForm "user" {[ "base" := "modbus_address_conflict" ]}).
Proof.
  split_and!; [compute_done | compute_done | compute_done | compute_done |].
  apply (field_errors_on_form supported_manufacturers supported_models
           (hub_impl := answering_hub good_data) (cfg "10.0.0.7" 502 5 5 10));
    compute_done.
Defined.

(** X16 on a hub that reports another manufacturer. *)
Lemma unsupported_hardware_on_form_witness :
  let data := cfg "10.0.0.7" 502 1 200 10 in
  field_checks_pass data ∧
  probe (hub_impl := answering_hub foreign_data) data = inr foreign_data ∧
  outcome (step (answering_hub foreign_data) (Some data))
    = inr (ShowForm "user" {[ "base" := "unsupported_hardware" ]}).
Proof.
  split; [compute_done |]. split; [reflexivity |].
  apply (unsupported_hardware_on_form supported_manufacturers supported_models
           (hub_impl := answering_hub foreign_data)
           (cfg "10.0.0.7" 502 1 200 10) foreign_data); [compute_done | reflexivity |].
  right. left. exists "SolarEdge". split; compute_done.
Defined.

(** X17 on a two-character host with a port that is too big as well. *)
Lemma form_has_exactly_one_error_witness :
  let data := cfg "ab" 70000 1 200 10 in
  let errors : gmap string string := {[ "host" := "invalid_host" ]} in
  outcome (step (answering_hub good_data) (Some data)) = inr (ShowForm "user" errors) ∧
  size errors = 1%nat ∧
  (is_Some (errors !! "host") ↔ (String.length (CONF_HOST data) < 3)%nat) ∧
  (is_Some (errors !! "base") ↔ (3 ≤ String.length (CONF_HOST data))%nat).
Proof.
  assert (outcome (step (answering_hub good_data) (Some (cfg "ab" 70000 1 200 10)))
          = inr (ShowForm "user" {[ "host" := "invalid_host" ]})) as Hform
    by (vm_compute; reflexivity).
  split; [exact Hform |].
  exact (form_has_exactly_one_error supported_manufacturers supported_models
           (hub_impl := answering_hub good_data) (cfg "ab" 70000 1 200 10)
           "user" {[ "host" := "invalid_host" ]} Hform).
Defined.

(** X18 on a hub whose [init_data] times out. *)
Lemma unknown_is_never_reported_witness :
  let data := cfg "10.0.0.7" 502 1 200 10 in
  let errors : gmap string string := {[ "base" := "cannot_connect" ]} in
  outcome (step (unreachable_hub timeout) (Some data)) = inr (ShowForm "user" errors) ∧
  errors !! "base" ≠ Some "unknown".
Proof.
  assert (outcome (step (unreachable_hub timeout) (Some (cfg "10.0.0.7" 502 1 200 10)))
          = inr (ShowForm "user" {[ "base" := "cannot_connect" ]})) as Hform
    by (vm_compute; reflexivity).
  split; [exact Hform |].
  exact (proj2 (proj2 (unknown_is_never_reported supported_manufacturers supported_models
           (hub_impl := unreachable_hub timeout) (Some (cfg "10.0.0.7" 502 1 200 10))))
           "user" {[ "base" := "cannot_connect" ]} Hform).
Defined.

(** X19 on a hub that reports another manufacturer. *)
Lemma hardware_error_names_cause_witness :
  let data := cfg "10.0.0.7" 502 1 200 10 in
  field_checks_pass data ∧
  probe (hub_impl := answering_hub foreign_data) data = inr foreign_data ∧
  EvLog ERROR (MsgUnsupportedManufacturer "SolarEdge")
    ∈ trace (validate (answering_hub foreign_data) data).
Proof.
  split; [compute_done |]. split; [reflexivity |].
  apply (hardware_error_names_cause supported_manufacturers supported_models
           (hub_impl := answering_hub foreign_data)
           (cfg "10.0.0.7" 502 1 200 10) foreign_data
           (MsgUnsupportedManufacturer "SolarEdge")); [compute_done | reflexivity |].
  right. left. exists "SolarEdge". split_and!; [reflexivity | reflexivity | compute_done].
Defined.
